(** * Sales-reporting pipeline of the dealer dashboards

    A shallow embedding of the aggregation and classification code of
    [streamlit_app.py], [streamlit_app_2.py] and [streamlit_app_3.py]:
    the static category map and its lookup dictionary, the customer tier
    thresholds, the per-customer group-by tables, the filters, the quantity
    pivot and the heatmap matrices.

    Conventions of the embedding.
    - A DataFrame is a [list] of records, one record per row, in row order.
    - A cell that pandas holds as NaN / NaT is [None].
    - Amounts and quantities are exact rationals ([Q]); sums are compared
      with [Qeq].  The three outcomes of a float division by zero are kept
      apart in the type [fval].
    - Strings are byte strings; Python's ordering of [str] by code point is
      the byte-wise order [String.compare] on them. *)

From Stdlib Require Import QArith Qround Lqa Ascii String.
From stdpp Require Import gmap strings list sorting.
Import Ascii.

Local Open Scope string_scope.
Local Open Scope list_scope.

(** ** Static configuration: the category map *)

(** [category_map], the dict literal shared by the three scripts, in the
    order of the literal. *)
Definition category_map : list (string * list string) :=
  [
   ("Bio-Fertilizers",
     [
      "peek sanjivani - consortia"; "bio surakshak - tryka (trichoderma)";
      "peek sanjivani - p (psb)"; "sanjivani kit (5 ltrs)";
      "peek sanjivani - k (kmb)"; "peek sanjivani - p (azotobacter)";
      "bio surakshak - ryzia (metarhizium)";
      "bio surakshak - rekha (psudomonas)";
      "peek sanjivani - n (azotobacter)"; "sanjivani granules";
      "rhizo-vishwa (200 gm)" ]);
   ("Micronutrients",
     [
      "nutrisac kit - (50 kg)"; "nutrisac kit - (25 kg)";
      "nutrisac kit - (10 kg)"; "dimond kit 50kg"; "micromax kit (50 kg)";
      "ferrous sulphate (feso4) - 20 kg"; "nutrisac mg -20kg";
      "nutrisac fe - 10 kg"; "nutrisac mg - 10 kg"; "nutrisac fe  - 20 kg";
      "jackpot kit"; "orient kit - (50 kg)";
      "magnesium sulphate (mgso4) - 20 kg"; "orient kit - (53 kg)";
      "diamond kit 50kg"; "ferrous sulphate - feso4 (20 kg bag)" ]);
   ("Chelated Micronutrients",
     [
      "iron man - eddha ferrous (500 gm)"; "micro man - fe (500 gm)";
      "micro man - fe (250 gm)"; "micro man - zn (250 gm)";
      "micro man - zn (500 gm)"; "micro man - pro (1 ltr)";
      "micro man - pro (500 ml)"; "micro man pro (250 ml)";
      "iron man - eddha ferrous (1 kg)" ]);
   ("Bio-Stimulants",
     [
      "titanic kit - (25 kg)"; "jeeto - 95 (100 ml)"; "jeeto - 95 (200 ml)";
      "flora - 95 (100 ml)"; "flora - 95 (200 ml)";
      "mantra humic acid (500 gm)"; "mantra humic acid (250 gm)";
      "mantra humic acid (1 kg)"; "jeeto - 95 (400 ml)";
      "pickup - 99 (100 ml)"; "pickup - 99 (200 ml)"; "pickup - 99 (400 ml)";
      "micro man plus (250 gm)"; "micro man plus (500 gm)";
      "flora - 95 (400 ml)"; "boomer - 90 (100 ml)"; "boomer - 90 (200 ml)";
      "boomer - 90 (400 ml)"; "bingo 100 ml"; "bingo 200 ml"; "bingo 400 ml";
      "rainbow 200"; "rainbow 400"; "rainbow 100ml";
      "mantra humic acid (100 gm)"; "zumbaa"; "turma max"; "simba";
      "captain (100 ml)"; "ferrari (200 ml)"; "ferrari (400 ml)";
      "bio stimulant - f"; "bio stimulant - j"; "ozone power (10 kg bucket)";
      "fountain 1 liter"; "fountain 500 ml" ]);
   ("Other Bulk Orders",
     [
      "biomass briquette"; "nandi choona"; "calcimag" ])
  ].

(** [{item: cat for cat, items in cm.items() for item in items}]: the
    categories are visited in the order of the literal, the items of a
    category in list order, and a later write to a key replaces an earlier
    one. *)
Definition dict_of_category_map (cm : list (string * list string))
  : gmap string string :=
  foldl (fun d '(cat, items) => foldl (fun d item => <[item := cat]> d) d items)
        ∅ cm.

Definition item_to_category : gmap string string :=
  dict_of_category_map category_map.

(** [Series.map(d).fillna(dflt)] on one cell: a missing cell and a key that
    is not in the dictionary both give NaN, which [fillna] replaces. *)
Definition map_fillna (d : gmap string string) (dflt : string)
    (cell : option string) : string :=
  default dflt (cell ≫= fun k => d !! k).

(** The value of the [Category] / [Product Category] column for an item
    name cell. *)
Definition classify_item (cell : option string) : string :=
  map_fillna item_to_category "Uncategorized" cell.

(** ** Customer tiers *)

(** [a > b] on amounts. *)
Definition Qgtb (a b : Q) : bool := negb (Qle_bool a b).

(** [classify_customer] of [streamlit_app_2.py] and [streamlit_app_3.py]
    (the two definitions are the same text); [10_00_000] is [1000000]. *)
Definition classify_customer (amount : Q) : string :=
  if Qgtb amount 1000000 then "Gold"
  else if Qgtb amount 500000 then "Silver"
  else if Qgtb amount 100000 then "Bronze"
  else "Copper".

(** ** Strings *)

(** [str.lower()] on the ASCII letters (bytes outside [A-Z] are kept). *)
Definition lower_ascii (c : ascii) : ascii :=
  let n := Ascii.N_of_ascii c in
  if (65 <=? n)%N && (n <=? 90)%N then Ascii.ascii_of_N (n + 32) else c.

Fixpoint lower (s : string) : string :=
  match s with
  | EmptyString => EmptyString
  | String c s' => String (lower_ascii c) (lower s')
  end.

(** The whitespace bytes that [str.strip()] removes. *)
Definition is_space (c : ascii) : bool :=
  let n := Ascii.N_of_ascii c in
  ((9 <=? n)%N && (n <=? 13)%N) || ((28 <=? n)%N && (n <=? 32)%N).

Fixpoint lstrip (s : string) : string :=
  match s with
  | EmptyString => EmptyString
  | String c s' => if is_space c then lstrip s' else s
  end.

Fixpoint rstrip (s : string) : string :=
  match s with
  | EmptyString => EmptyString
  | String c s' =>
      match rstrip s' with
      | EmptyString => if is_space c then EmptyString else String c EmptyString
      | t => String c t
      end
  end.

Definition strip (s : string) : string := rstrip (lstrip s).

(** [pat in s]: [pat] occurs in [s] as a contiguous substring.  This is what
    [Series.str.contains(pat)] computes for a pattern without regular
    expression metacharacters; the empty pattern matches at position 0. *)
Fixpoint str_contains (pat s : string) : bool :=
  String.prefix pat s ||
  match s with
  | EmptyString => false
  | String _ s' => str_contains pat s'
  end.

(** Truth value of a Python [str]: non-empty. *)
Definition truthy (s : string) : bool :=
  match s with EmptyString => false | _ => true end.

(** Ordering of [str] keys, as used when pandas sorts group keys. *)
Definition str_le : relation string := λ a b, String.leb a b.

(** Lexicographic order on pairs of [str] keys (a two-level group key). *)
Definition pair_leb (a b : string * string) : bool :=
  match String.compare a.1 b.1 with
  | Lt => true
  | Eq => String.leb a.2 b.2
  | Gt => false
  end.

Definition pair_le : relation (string * string) := λ a b, pair_leb a b.

(** ** Dates and month labels *)

Inductive month_name :=
  | Jan | Feb | Mar | Apr | May | Jun | Jul | Aug | Sep | Oct | Nov | Dec.

Record date := mk_date { year : Z; mon : month_name; day : Z }.

Definition month_number (m : month_name) : Z :=
  match m with
  | Jan => 1 | Feb => 2 | Mar => 3 | Apr => 4 | May => 5 | Jun => 6
  | Jul => 7 | Aug => 8 | Sep => 9 | Oct => 10 | Nov => 11 | Dec => 12
  end.

(** [%b] in the C locale. *)
Definition month_abbr (m : month_name) : string :=
  match m with
  | Jan => "Jan" | Feb => "Feb" | Mar => "Mar" | Apr => "Apr"
  | May => "May" | Jun => "Jun" | Jul => "Jul" | Aug => "Aug"
  | Sep => "Sep" | Oct => "Oct" | Nov => "Nov" | Dec => "Dec"
  end.

Definition all_months : list month_name :=
  [Jan; Feb; Mar; Apr; May; Jun; Jul; Aug; Sep; Oct; Nov; Dec].

Definition month_of_abbr (s : string) : option month_name :=
  snd <$> list_find (λ m, month_abbr m = s) all_months.

Definition digit_char (n : Z) : ascii :=
  Ascii.ascii_of_N (48 + Z.to_N (n mod 10)).

Definition digit_value (c : ascii) : option Z :=
  let n := Ascii.N_of_ascii c in
  if (48 <=? n)%N && (n <=? 57)%N then Some (Z.of_N n - 48)%Z else None.

Definition two_digits (n : Z) : string :=
  String (digit_char (n / 10)) (String (digit_char n) EmptyString).

Definition four_digits (n : Z) : string :=
  String (digit_char (n / 1000)) (String (digit_char (n / 100))
    (two_digits n)).

(** [Timestamp.strftime("%b %y")]: month abbreviation and the year without
    its century, e.g. "Jan 24". *)
Definition strftime_b_y (d : date) : string :=
  month_abbr (mon d) ++ " " ++ two_digits (year d mod 100).

(** [str(Period(d, 'M'))], e.g. "2024-01". *)
Definition period_M_str (d : date) : string :=
  four_digits (year d) ++ "-" ++ two_digits (month_number (mon d)).

(** [strptime(label, "%b %y")]: the first day of the month named by the
    label; a two-digit year below 69 is in the 2000s, otherwise in the 1900s. *)
Definition strptime_b_y (label : string) : option date :=
  match label with
  | String a (String b (String c (String " "
      (String y1 (String y2 EmptyString))))) =>
      m ← month_of_abbr (String a (String b (String c EmptyString)));
      d1 ← digit_value y1;
      d2 ← digit_value y2;
      let yy := (10 * d1 + d2)%Z in
      Some (mk_date (if (yy <? 69)%Z then 2000 + yy else 1900 + yy)%Z m 1)
  | _ => None
  end.

(** Chronological order of timestamps. *)
Definition date_key (d : date) : Z :=
  ((year d * 12 + month_number (mon d)) * 32 + day d)%Z.

Definition date_le : relation date :=
  λ a b, Z.leb (date_key a) (date_key b).

(** ** Numbers *)

Definition Qsum (l : list Q) : Q := foldr Qplus 0%Q l.

(** The value of a float expression that may have divided by zero. *)
Inductive fval :=
  | Fin (q : Q)
  | PInf
  | NInf
  | NaN.

(** Element-wise [a / b] of two float columns: division by zero does not
    raise, it gives NaN for [0 / 0] and a signed infinity otherwise. *)
Definition fdiv (a b : Q) : fval :=
  if Qeq_bool b 0 then
    if Qeq_bool a 0 then NaN else if Qgtb a 0 then PInf else NInf
  else Fin (a / b).

(** [v * k] for a positive constant [k]. *)
Definition fscale (v : fval) (k : Q) : fval :=
  match v with Fin q => Fin (q * k) | other => other end.

(** Round half to even to the nearest integer. *)
Definition round_half_even (x : Q) : Z :=
  let f := Qfloor x in
  let r := (x - inject_Z f)%Q in
  if Qgtb (1 # 2) r then f
  else if Qgtb r (1 # 2) then (f + 1)%Z
  else if Z.even f then f else (f + 1)%Z.

(** [Series.round(1)] on one cell. *)
Definition fround1 (v : fval) : fval :=
  match v with
  | Fin q => Fin (inject_Z (round_half_even (q * 10)) / 10)
  | other => other
  end.

(** ** The transaction table *)

(** One row of the loaded CSV, after [str.lower()] on the item name,
    [str.strip()] on the customer name and [pd.to_datetime] on the date.  An
    empty CSV cell is [None]. *)
Record Row := mk_row {
  challan_number : option string;
  challan_date : option date;
  customer_name : option string;
  item_name : option string;
  quantity_ordered : Q;
  item_total : Q
}.

(** The [Category] column ([Product Category] in [streamlit_app_3.py]). *)
Definition Category (r : Row) : string := classify_item (item_name r).

(** ** Loading *)

(** A CSV row as [pd.read_csv] returns it. *)
Record RawRow := mk_raw {
  raw_challan : option string;
  raw_date : option string;
  raw_customer : option string;
  raw_item : option string;
  raw_quantity : Q;
  raw_total : Q
}.

Section loading.
(** pandas's date parser on one string; [None] when the string is not a
    date. *)
Variable parse : string → option date.

(** [pd.to_datetime(col)]: the default [errors="raise"] makes the call
    fail ([None]) on the first string that does not parse; an empty cell
    becomes NaT. *)
Definition to_datetime_raise (col : list (option string))
  : option (list (option date)) :=
  mapM (λ cell, match cell with
                | Some s => Some <$> parse s
                | None => Some None
                end) col.

(** [pd.to_datetime(col, errors="coerce")]: a string that does not parse
    becomes NaT. *)
Definition to_datetime_coerce (col : list (option string))
  : list (option date) :=
  map (λ cell, cell ≫= parse) col.

Definition normalise (r : RawRow) (d : option date) : Row :=
  mk_row (raw_challan r) d (strip <$> raw_customer r)
         (lower <$> raw_item r) (raw_quantity r) (raw_total r).

(** Lines 7-13 of [streamlit_app.py]. *)
Definition load_app (raw : list RawRow) : option (list Row) :=
  ds ← to_datetime_raise (raw_date <$> raw);
  Some (zip_with normalise raw ds).

(** Lines 6-9 of [streamlit_app_3.py]. *)
Definition load_app_3 (raw : list RawRow) : list Row :=
  zip_with normalise raw (to_datetime_coerce (raw_date <$> raw)).
End loading.

Definition month_of_number (n : Z) : option month_name :=
  snd <$> list_find (λ m, month_number m = n) all_months.

(** A sample date parser, for running the model: ISO dates "YYYY-MM-DD"
    only (pandas's parser accepts these and many other formats). *)
Definition parse_iso (s : string) : option date :=
  match s with
  | String y1 (String y2 (String y3 (String y4 (String "-"
      (String m1 (String m2 (String "-"
        (String d1 (String d2 EmptyString))))))))) =>
      a ← digit_value y1; b ← digit_value y2;
      c ← digit_value y3; d ← digit_value y4;
      e ← digit_value m1; f ← digit_value m2;
      g ← digit_value d1; h ← digit_value d2;
      m ← month_of_number (10 * e + f);
      Some (mk_date (1000 * a + 100 * b + 10 * c + d) m (10 * g + h))
  | _ => None
  end.

(** ** Group-by *)

Section groupby.
Context {A K : Type} `{EqDecision K}.
Context (R : relation K) `{∀ x y, Decision (R x y)}.

(** The group keys of [df.groupby(key)]: the distinct keys, rows whose
    key is missing dropped, in ascending order. *)
Definition group_keys (key : A → option K) (df : list A) : list K :=
  merge_sort R (remove_dups (omap key df)).

(** The rows of one group, in row order. *)
Definition group (key : A → option K) (k : K) (df : list A) : list A :=
  filter (λ r, key r = Some k) df.
End groupby.

(** [Series.nunique()]: number of distinct values, missing ones not counted. *)
Definition nunique (col : list (option string)) : nat :=
  length (remove_dups (omap id col)).

(** ** [streamlit_app.py]: dealer dashboard *)

Record DealerRow := mk_dealer {
  d_customer : string;
  d_total_sales : Q;
  d_total_orders : nat
}.

(** [df.groupby("Customer Name").agg(...).rename(...).reset_index()]: one
    row per customer, in ascending order of the name. *)
Definition dealer_groups (df : list Row) : list DealerRow :=
  map (λ c, let g := group customer_name c df in
            mk_dealer c (Qsum (item_total <$> g))
                      (nunique (challan_number <$> g)))
      (group_keys str_le customer_name df).

(** [a] may stand before [b] in descending order of [Total Sales]. *)
Definition sales_ge : relation DealerRow :=
  λ a b, Qle_bool (d_total_sales b) (d_total_sales a).



(** One admissible run of the sort, used to execute the model. *)
Definition dealer_stats_run (df : list Row) : list DealerRow :=
  merge_sort sales_ge (dealer_groups df).

(** [search = st.text_input(...).strip().lower()]. *)
Definition search_of_input (input : string) : string := lower (strip input).

(** [dealer_stats[dealer_stats["Customer Name"].str.lower()
      .str.contains(search)]]. *)
Definition filtered_dealers (search : string) (stats : list DealerRow)
  : list DealerRow :=
  filter (λ d, str_contains search (lower (d_customer d))) stats.

(** [df[df["Customer Name"] == customer]]. *)
Definition customer_data (df : list Row) (customer : string) : list Row :=
  filter (λ r, customer_name r = Some customer) df.

Record ShareRow := mk_share {
  sh_category : string;
  sh_total : Q;
  sh_pct : fval
}.

(** [category_share] of lines 94-98: the per-category sums of the
    customer's rows and each sum as a percentage of their total. *)
Definition category_share (cd : list Row) : list ShareRow :=
  let sums :=
    map (λ c, (c, Qsum (item_total <$> group (λ r, Some (Category r)) c cd)))
        (group_keys str_le (λ r, Some (Category r)) cd) in
  let total := Qsum (sums.*2) in
  map (λ ct, mk_share ct.1 ct.2 (fround1 (fscale (fdiv ct.2 total) 100)))
      sums.

(** The [Month] column of [streamlit_app.py]:
    [dt.to_period('M').astype(str)]; a missing date prints as "NaT". *)
Definition Month1 (r : Row) : string :=
  match challan_date r with
  | Some d => period_M_str d
  | None => "NaT"
  end.

(** [monthly_totals]: [customer_data.groupby("Month")["Item Total"].sum()]. *)
Definition monthly_totals (cd : list Row) : list (string * Q) :=
  map (λ m, (m, Qsum (item_total <$> group (λ r, Some (Month1 r)) m cd)))
      (group_keys str_le (λ r, Some (Month1 r)) cd).

(** ** [streamlit_app_2.py]: dealer summary table *)

(** A per-category cell of the summary: "-" or an amount with its
    percentage (the text formatting of the two numbers is not modelled). *)
Inductive cat_cell :=
  | Dash
  | AmtPct (a : Q) (p : fval).

Record SummaryRow := mk_summary {
  s_customer : string;
  s_total_orders : nat;
  s_total_amount : Q;
  s_cats : list (string * cat_cell);
  s_customer_type : string
}.

Definition category_list : list string :=
  category_map.*1 ++ ["Uncategorized"].

(** [amt]: the per-customer sums over the rows of one category. *)
Definition amt (df : list Row) (cat : string) : list (string * Q) :=
  let sub := filter (λ r, Category r = cat) df in
  map (λ c, (c, Qsum (item_total <$> group customer_name c sub)))
      (group_keys str_le customer_name sub).

(** [summary.index.map(amt).fillna(0)] at one customer. *)
Definition amt_full (df : list Row) (cat customer : string) : Q :=
  default 0%Q
    ((λ p, p.2.2) <$> list_find (λ ca, ca.1 = customer) (amt df cat)).

(** [Series.replace(0, 1)] on one cell. *)
Definition replace_0_1 (t : Q) : Q := if Qeq_bool t 0 then 1%Q else t.

(** [pct_full] at one customer. *)
Definition pct_full (df : list Row) (cat customer : string) (total : Q)
  : fval :=
  fscale (fdiv (amt_full df cat customer) (replace_0_1 total)) 100.

Definition summary_cell (a : Q) (p : fval) : cat_cell :=
  if Qgtb a 0 then AmtPct a p else Dash.

(** The [summary] table after line 89. *)
Definition summary (df : list Row) : list SummaryRow :=
  map (λ c, let g := group customer_name c df in
            let total := Qsum (item_total <$> g) in
            mk_summary c (nunique (challan_number <$> g)) total
              (map (λ cat, (cat, summary_cell (amt_full df cat c)
                                              (pct_full df cat c total)))
                   category_list)
              (classify_customer total))
      (group_keys str_le customer_name df).

(** The [filtered] table of lines 102-106. *)
Definition filtered (selected_type selected_customer : string)
    (summary : list SummaryRow) : list SummaryRow :=
  let f1 := if decide (selected_type ≠ "All")
            then filter (λ s, s_customer_type s = selected_type) summary
            else summary in
  if decide (selected_customer ≠ "All")
  then filter (λ s, s_customer s = selected_customer) f1
  else f1.

(** ** [streamlit_app_3.py]: product quantity timeline *)

(** [customer_summary] of line 55: the total per customer, by name. *)
Definition customer_summary (df : list Row) : list (string * Q) :=
  map (λ c, (c, Qsum (item_total <$> group customer_name c df)))
      (group_keys str_le customer_name df).

(** [customer_summary[["Customer Name", "Customer Type"]]] after line 65. *)
Definition customer_types (df : list Row) : list (string * string) :=
  map (λ ct, (ct.1, classify_customer ct.2)) (customer_summary df).

(** [df.merge(right, on="Customer Name", how="left")]: every row of [df],
    in order, once per row of [right] with the same customer name, and once
    with a missing type when there is none. *)
Definition merge_left (df : list Row) (right : list (string * string))
  : list (Row * option string) :=
  df ≫= λ r,
    match filter (λ kt, customer_name r = Some kt.1) right with
    | [] => [(r, None)]
    | ms => map (λ kt, (r, Some kt.2)) ms
    end.

(** A row of [df] as the views of [streamlit_app_3.py] see it, with the
    three derived columns. *)
Record Row3 := mk_row3 {
  base : Row;
  Product_Category : string;
  Customer_Type : option string;
  Month : option string
}.

(** The table [df] after line 69. *)
Definition df3 (df : list Row) : list Row3 :=
  map (λ rt, mk_row3 rt.1 (Category rt.1) rt.2
                     (strftime_b_y <$> challan_date rt.1))
      (merge_left df (customer_types df)).

Record Filters := mk_filters {
  selected_product_type : string;
  selected_customer_type : string;
  search_term : string
}.

(** [Series.str.contains(pat, case=False, na=False)] on one cell. *)
Definition contains_nocase (pat : string) (cell : option string) : bool :=
  match cell with
  | Some s => str_contains (lower pat) (lower s)
  | None => false
  end.

(** The three conditional filters of lines 89-94 (and again 141-146). *)
Definition filter_product_type (sel : string) (d : list Row3) : list Row3 :=
  if decide (sel ≠ "All")
  then filter (λ r, Product_Category r = sel) d
  else d.

Definition filter_customer_type (sel : string) (d : list Row3) : list Row3 :=
  if decide (sel ≠ "All")
  then filter (λ r, Customer_Type r = Some sel) d
  else d.

Definition filter_search (term : string) (d : list Row3) : list Row3 :=
  if truthy term
  then filter (λ r, contains_nocase term (item_name (base r))) d
  else d.

Definition apply_filters (f : Filters) (d : list Row3) : list Row3 :=
  filter_search (search_term f)
    (filter_customer_type (selected_customer_type f)
       (filter_product_type (selected_product_type f) d)).

Definition filtered_df (f : Filters) (df : list Row3) : list Row3 :=
  apply_filters f df.

(** A pivot: row labels, column labels and one list of cells per row. *)
Record pivot (K : Type) := mk_pivot {
  p_index : list K;
  p_columns : list string;
  p_values : list (list Q)
}.
Arguments mk_pivot {K} _ _ _.
Arguments p_index {K} _.
Arguments p_columns {K} _.
Arguments p_values {K} _.

Definition item_key (r : Row3) : option (string * string) :=
  (λ i, (Product_Category r, i)) <$> item_name (base r).

(** A table of summed quantities with the rows keyed by [rowkey] and one
    column per month: as well [groupby([..., "Month"])[q].sum()
    .unstack(fill_value=0)] as [pivot_table(index=..., columns="Month",
    values=q, aggfunc="sum", fill_value=0)].  A row of the data with a
    missing key or month is in no group; row and column labels are the
    distinct keys in ascending order; a combination that does not occur
    gets 0. *)
Definition sum_pivot {K} `{EqDecision K} (R : relation K)
    `{∀ x y, Decision (R x y)} (rowkey : Row3 → option K) (d : list Row3)
  : pivot K :=
  let kept := filter (λ r, is_Some (rowkey r) ∧ is_Some (Month r)) d in
  let idx := group_keys R rowkey kept in
  let cols := group_keys str_le Month kept in
  mk_pivot idx cols
    (map (λ k, map (λ m, Qsum (quantity_ordered ∘ base <$>
                                 group Month m (group rowkey k kept)))
                   cols)
         idx).

(** [pivot_qty] of line 97, keyed by category and item name. *)
Definition pivot_qty (fd : list Row3) : pivot (string * string) :=
  sum_pivot pair_le item_key fd.



(** Lines 148-149 on one row: the month label once more from the date,
    and "Unknown Item" for a missing item name. *)
Definition heatmap_row (r : Row3) : Row3 :=
  mk_row3
    (mk_row (challan_number (base r)) (challan_date (base r))
            (customer_name (base r))
            (Some (default "Unknown Item" (item_name (base r))))
            (quantity_ordered (base r)) (item_total (base r)))
    (Product_Category r) (Customer_Type r)
    (strftime_b_y <$> challan_date (base r)).

(** [heatmap_data] after line 149. *)
Definition heatmap_data (f : Filters) (df : list Row3) : list Row3 :=
  heatmap_row <$>
    apply_filters f
      (filter (λ r, Product_Category r ≠ "Other Bulk Orders") df).

(** [pd.to_datetime(cols, format="%b %y").sort_values().strftime("%b %y")];
    [None] when a label does not parse. *)
Definition chronological (cols : list string) : option (list string) :=
  ds ← mapM strptime_b_y cols;
  Some (strftime_b_y <$> merge_sort date_le ds).

(** The cell of a row under the column labelled [c]. *)
Definition cell_at (cols : list string) (row : list Q) (c : string)
  : option Q :=
  (λ x, x.2.2) <$> list_find (λ lv, lv.1 = c) (zip cols row).

(** [p[cols']]: the columns of [p] picked by label, in the order of
    [cols']; [None] when a label is not a column. *)
Definition select_columns {K} (cols' : list string) (p : pivot K)
  : option (pivot K) :=
  vs ← mapM (λ row, mapM (cell_at (p_columns p) row) cols') (p_values p);
  Some (mk_pivot (p_index p) cols' vs).

(** [pivot.loc[pivot.sum(axis=1) > 0]]. *)
Definition positive_rows {K} (p : pivot K) : pivot K :=
  let keep := filter (λ kv, Qgtb (Qsum kv.2) 0) (zip (p_index p) (p_values p)) in
  mk_pivot (keep.*1) (p_columns p) (keep.*2).

(** The matrix of one heatmap (lines 156-158). *)
Definition heatmap_pivot (sub_df : list Row3) : option (pivot string) :=
  let p := sum_pivot str_le (λ r, item_name (base r)) sub_df in
  let p := positive_rows p in
  cols' ← chronological (p_columns p);
  select_columns cols' p.

Definition tiers : list string := ["Gold"; "Silver"; "Bronze"; "Copper"].

(** The loop of lines 151-183: one matrix per customer type that has rows;
    [None] when an iteration raises. *)
Definition heatmaps (f : Filters) (df : list Row3)
  : option (list (string * pivot string)) :=
  let hd := heatmap_data f df in
  mapM (λ ct, (λ p, (ct, p)) <$>
              heatmap_pivot (filter (λ r, Customer_Type r = Some ct) hd))
       (filter (λ ct, filter (λ r, Customer_Type r = Some ct) hd ≠ []) tiers).

(** ** Quantities and properties the statements are about *)

(** The sum of all cells of a pivot, and of a list of heatmaps. *)
Definition pivot_cells_sum {K} (p : pivot K) : Q :=
  Qsum (Qsum <$> p_values p).

Definition heatmap_cells_sum (hs : list (string * pivot string)) : Q :=
  Qsum ((λ h, pivot_cells_sum h.2) <$> hs).




(** The tier of the row's customer computed from the customer's item totals
    over the whole table [df]; missing for a row without customer name. *)
Definition tier_of (df : list Row) (r : Row) : option string :=
  (λ c, classify_customer (Qsum (item_total <$> customer_data df c)))
    <$> customer_name r.

(** ** Sample data *)

(** The two rows of the example scenario: one customer, a sale in January
    2024 and one in February 2024. *)
Definition jan_feb : list Row :=
  [ mk_row (Some "DC-1") (Some (mk_date 2024 Jan 5)) (Some "A")
           (Some "simba") 2 1000;
    mk_row (Some "DC-2") (Some (mk_date 2024 Feb 10)) (Some "A")
           (Some "zumbaa") 1 500 ].

(** A customer whose only row has an item total of zero. *)
Definition zero_total : list Row :=
  [ mk_row (Some "DC-1") (Some (mk_date 2024 Jan 5)) (Some "A")
           (Some "simba") 1 0 ].

(** A CSV with one good date and one that is not a date. *)
Definition bad_date : list RawRow :=
  [ mk_raw (Some "DC-1") (Some "2024-01-05") (Some "A") (Some "Simba") 2 1000;
    mk_raw (Some "DC-2") (Some "soon") (Some " B ") (Some "Zumbaa") 1 500 ].

Definition no_filter : Filters := mk_filters "All" "All" EmptyString.




(** A bulk item with a positive quantity, next to a regular item. *)
Definition bulk_some : list Row :=
  [ mk_row (Some "DC-1") (Some (mk_date 2024 Jan 5)) (Some "A")
           (Some "simba") 2 1000;
    mk_row (Some "DC-2") (Some (mk_date 2024 Jan 9)) (Some "A")
           (Some "calcimag") 4 500 ].

(** ** Further notions used in the statements *)

(** The tiers from lowest to highest. *)
Definition tier_rank (t : string) : nat :=
  if decide (t = "Gold") then 3
  else if decide (t = "Silver") then 2
  else if decide (t = "Bronze") then 1
  else 0.

(** A string that [str.strip()] empties: only whitespace bytes. *)
Fixpoint all_space (s : string) : bool :=
  match s with
  | EmptyString => true
  | String c s' => is_space c && all_space s'
  end.

(** ** [streamlit_app_3.py]: the totals row *)




(** ** Colour tables *)

(** A dict literal: the pairs are written in order, a later pair replaces
    an earlier one with the same key. *)
Definition dict_literal (kvs : list (string * string)) : gmap string string :=
  foldl (λ d kv, <[kv.1 := kv.2]> d) ∅ kvs.

(** [d.get(k, dflt)]. *)
Definition dict_get (d : gmap string string) (k dflt : string) : string :=
  default dflt (d !! k).

(** [category_colors] of [streamlit_app.py], lines 58-65. *)
Definition category_colors : gmap string string :=
  dict_literal
    [ ("Bio-Fertilizers", "#1f77b4"); ("Micronutrients", "#ff7f0e");
      ("Chelated Micronutrients", "#2ca02c"); ("Bio-Stimulants", "#d62728");
      ("Other Bulk Orders", "#9467bd"); ("Uncategorized", "#8c564b") ].

(** The colour of a bar of the category share chart (line 107). *)
Definition bar_color (cat : string) : string :=
  dict_get category_colors cat "#cccccc".

(** [color_map] of [highlight_row] in [streamlit_app_2.py] and the colour it
    picks for a row (lines 109-116). *)
Definition color_map : gmap string string :=
  dict_literal
    [ ("Gold", "#FFFACD"); ("Silver", "#D3D3D3"); ("Bronze", "#F5DEB3");
      ("Copper", "#ADD8E6") ].

Definition highlight_row (s : SummaryRow) : string :=
  dict_get color_map (s_customer_type s) "#FFFFFF".

(** [category_colors] of [highlight_by_category] in [streamlit_app_3.py] and
    the colour it picks for a pivot row, whose label is (category, item)
    (lines 111-121). *)
Definition category_colors_3 : gmap string string :=
  dict_literal
    [ ("Bio-Fertilizers", "#E8F8F5"); ("Micronutrients", "#FEF9E7");
      ("Chelated Micronutrients", "#FDEDEC"); ("Bio-Stimulants", "#EBF5FB");
      ("Other Bulk Orders", "#F9EBEA"); ("Uncategorized", "#F4F6F6") ].

Definition highlight_by_category (label : string * string) : string :=
  dict_get category_colors_3 label.1 "#FFFFFF".


(** The first day of the month of a date: what a month label stands for. *)
Definition first_of_month (d : date) : date := mk_date (year d) (mon d) 1.

(** The year that [%y] reads from the two digits of a year. *)
Definition two_digit_year (n : Z) : Z :=
  if (n <? 69)%Z then (2000 + n)%Z else (1900 + n)%Z.

(** ** [streamlit_app.py]: the monthly breakdown *)


(** ** [streamlit_app.py]: the rows of the dealer list *)

(** The rows that the loop of lines 86-90 goes through, each with the serial
    number it shows: [dealer_stats] was re-indexed 0, 1, ... after sorting,
    the search mask keeps the index labels, and [serial = idx + 1]. *)
Definition dealer_rows_shown (search : string) (stats : list DealerRow)
  : list (nat * DealerRow) :=
  (λ p, (S p.1, p.2)) <$>
    filter (λ p, str_contains search (lower (d_customer p.2)))
           (imap (λ i d, (i, d)) stats).

(** ** [streamlit_app_2.py]: summary by customer type *)



(** * Theorems *)

Lemma Qgtb_lt a b : Qgtb a b = true ↔ (b < a)%Q.
Proof.
  unfold Qgtb. rewrite negb_true_iff.
  destruct (Qle_bool a b) eqn:E.
  - apply Qle_bool_iff in E. split; [done|]. intros H.
    exfalso. eapply Qlt_not_le; eauto.
  - split; [intros _|done]. apply Qnot_le_lt. intros H.
    apply Qle_bool_iff in H. congruence.
Qed.

Lemma Qgtb_le a b : Qgtb a b = false ↔ (a <= b)%Q.
Proof.
  unfold Qgtb. rewrite negb_false_iff. apply Qle_bool_iff.
Qed.

(** C1. [classify_customer s] is "Gold" exactly when [s > 1000000], "Silver"
    exactly when [500000 < s <= 1000000], "Bronze" exactly when
    [100000 < s <= 500000] and "Copper" exactly when [s <= 100000]; every
    negative amount is "Copper".  The function is total on the rationals. *)
Theorem classify_customer_thresholds (s : Q) :
  (classify_customer s = "Gold" ↔ (1000000 < s)%Q) ∧
  (classify_customer s = "Silver" ↔ (500000 < s)%Q ∧ (s <= 1000000)%Q) ∧
  (classify_customer s = "Bronze" ↔ (100000 < s)%Q ∧ (s <= 500000)%Q) ∧
  (classify_customer s = "Copper" ↔ (s <= 100000)%Q) ∧
  ((s < 0)%Q → classify_customer s = "Copper").
Proof.
  unfold classify_customer.
  destruct (Qgtb s 1000000) eqn:E1;
    [apply Qgtb_lt in E1|apply Qgtb_le in E1];
  (destruct (Qgtb s 500000) eqn:E2;
    [apply Qgtb_lt in E2|apply Qgtb_le in E2]);
  (destruct (Qgtb s 100000) eqn:E3;
    [apply Qgtb_lt in E3|apply Qgtb_le in E3]);
  repeat split; intros; try done; try lra.
Qed.

(** ** The category dictionary *)

Section dict_comprehension.
Implicit Types (d : gmap string string) (cm : list (string * list string)).

Lemma insert_items_lookup d cat items name :
  foldl (fun d item => <[item := cat]> d) d items !! name
  = if decide (name ∈ items) then Some cat else d !! name.
Proof.
  revert d. induction items as [|i items IH]; intros d; cbn [foldl].
  - destruct (decide (name ∈ [])) as [H|H]; [by apply elem_of_nil in H|done].
  - rewrite IH. destruct (decide (name = i)) as [->|Hne].
    + rewrite lookup_insert_eq.
      rewrite (decide_True (P := i ∈ i :: items)); [|left].
      destruct (decide (i ∈ items)); reflexivity.
    + rewrite lookup_insert_ne by done.
      apply decide_ext. rewrite elem_of_cons.
      split; [by right|by intros [?|?]].
Qed.

Lemma dict_lookup_origin_aux d cm name c :
  foldl (fun d '(cat, items) =>
           foldl (fun d item => <[item := cat]> d) d items) d cm !! name
    = Some c →
  d !! name = Some c ∨ ∃ items, (c, items) ∈ cm ∧ name ∈ items.
Proof.
  revert d. induction cm as [|[cat items] cm IH]; intros d; simpl.
  - by left.
  - intros H. apply IH in H as [H|(items' & Hin & Hn)].
    + rewrite insert_items_lookup in H. case_decide as Hd.
      * right. exists items. inversion H; subst. split; [left|done].
      * by left.
    + right. exists items'. split; [by right|done].
Qed.

(** A key of the dictionary is listed under the category it maps to. *)
Lemma dict_lookup_origin cm name c :
  dict_of_category_map cm !! name = Some c →
  ∃ items, (c, items) ∈ cm ∧ name ∈ items.
Proof.
  intros H. apply dict_lookup_origin_aux in H as [H|H]; [|done].
  by rewrite lookup_empty in H.
Qed.
End dict_comprehension.

(** Every listed item name is sent to the category that lists it (checked
    on the 75 entries of the literal). *)
Lemma category_map_entries_classified :
  Forall (fun ci => Forall (fun name => classify_item (Some name) = ci.1) ci.2)
         category_map.
Proof.
  assert (forallb (fun ci =>
            forallb (fun name => String.eqb (classify_item (Some name)) ci.1)
                    ci.2) category_map = true) as H
    by (vm_compute; reflexivity).
  rewrite forallb_forall in H. apply Forall_forall. intros ci Hci.
  apply list_elem_of_In, H in Hci. rewrite forallb_forall in Hci.
  apply Forall_forall. intros name Hn.
  apply list_elem_of_In, Hci, String.eqb_eq in Hn. exact Hn.
Qed.

(** C2. An item name listed in the category map is classified under the
    category that lists it; a name listed nowhere is "Uncategorized".
    [classify_item] is a total function of the cell. *)
Theorem classify_item_spec (name : string) :
  (∀ cat items, (cat, items) ∈ category_map → name ∈ items →
     classify_item (Some name) = cat) ∧
  ((∀ cat items, (cat, items) ∈ category_map → name ∉ items) →
     classify_item (Some name) = "Uncategorized").
Proof.
  split.
  - intros cat items Hc Hn.
    pose proof category_map_entries_classified as HF.
    rewrite Forall_forall in HF. specialize (HF _ Hc).
    rewrite Forall_forall in HF. exact (HF _ Hn).
  - intros Hno. unfold classify_item, map_fillna.
    change (Some name ≫= (fun k => item_to_category !! k))
      with (item_to_category !! name).
    destruct (item_to_category !! name) as [c|] eqn:E; [|reflexivity].
    apply dict_lookup_origin in E as (items & Hin & Hn).
    destruct (Hno _ _ Hin Hn).
Qed.

(** ** The example scenario *)

(** The two rows of [jan_feb] give one dealer row with total 1500 and two
    orders, a category share of 100.0 for "Bio-Stimulants", the tier
    "Copper" and the monthly totals 1000 and 500. *)
Example scenario_dealer_summary :
  dealer_stats_run jan_feb = [mk_dealer "A" 1500 2].
Proof. vm_compute. reflexivity. Qed.

Example scenario_category_share :
  (λ s, (sh_category s, sh_pct s)) <$> category_share (customer_data jan_feb "A")
  = [("Bio-Stimulants", Fin (1000 # 10))].
Proof. vm_compute. reflexivity. Qed.

Example scenario_tier :
  Customer_Type <$> df3 jan_feb = [Some "Copper"; Some "Copper"] ∧
  s_customer_type <$> summary jan_feb = ["Copper"].
Proof. split; vm_compute; reflexivity. Qed.

Example scenario_monthly_totals :
  monthly_totals (customer_data jan_feb "A")
  = [("2024-01", 1000%Q); ("2024-02", 500%Q)].
Proof. vm_compute. reflexivity. Qed.

Example scenario_unknown_product :
  classify_item (Some "unknown product") = "Uncategorized".
Proof. vm_compute. reflexivity. Qed.

(** ** Division by a zero total *)

(** C3. For the customer of [zero_total], whose item totals sum to zero, the
    [%] column of [category_share] in [streamlit_app.py] is NaN, not 0: the
    division by the zero sum is not guarded.  On the same rows the
    percentages of [streamlit_app_2.py], which replaces a zero total by 1
    before dividing, are all 0. *)
Theorem category_share_zero_total_is_nan :
  sh_pct <$> category_share (customer_data zero_total "A") = [NaN] ∧
  (λ s, (λ cat, pct_full zero_total cat (s_customer s) (s_total_amount s))
          <$> category_list) <$> summary zero_total
  = [[Fin 0; Fin 0; Fin 0; Fin 0; Fin 0; Fin 0]].
Proof. split; vm_compute; reflexivity. Qed.

(** ** Dates that do not parse *)

Lemma to_datetime_raise_fails parse col s :
  Some s ∈ col → parse s = None → to_datetime_raise parse col = None.
Proof.
  intros Hin Hp. apply mapM_None, Exists_exists.
  exists (Some s). split; [done|]. by rewrite Hp.
Qed.

Lemma load_app_3_keeps parse raw r :
  r ∈ raw → normalise r (raw_date r ≫= parse) ∈ load_app_3 parse raw.
Proof.
  unfold load_app_3, to_datetime_coerce.
  induction raw as [|x raw IH]; intros Hin; [by apply elem_of_nil in Hin|].
  apply elem_of_cons in Hin as [->|Hin]; cbn.
  - left.
  - right. by apply IH.
Qed.

(** C4. When some row's date string does not parse, the load of
    [streamlit_app.py] fails as a whole ([pd.to_datetime] raises), whereas
    the load of [streamlit_app_3.py] keeps the row, with a missing date. *)
Theorem unparseable_date_is_fatal_in_app
    (parse : string → option date) (raw : list RawRow) (r : RawRow)
    (s : string) :
  r ∈ raw → raw_date r = Some s → parse s = None →
  load_app parse raw = None ∧
  normalise r None ∈ load_app_3 parse raw.
Proof.
  intros Hin Hd Hp. split.
  - unfold load_app.
    rewrite (to_datetime_raise_fails parse (raw_date <$> raw) s); [done| |done].
    rewrite <- Hd. by apply list_elem_of_fmap_2.
  - pose proof (load_app_3_keeps parse raw r Hin) as H.
    by rewrite Hd in H; cbn in H; rewrite Hp in H.
Qed.

Lemma unparseable_date_is_fatal_in_app_witness :
  load_app parse_iso bad_date = None ∧
  normalise (mk_raw (Some "DC-2") (Some "soon") (Some " B ") (Some "Zumbaa")
                    1 500) None ∈ load_app_3 parse_iso bad_date.
Proof.
  apply (unparseable_date_is_fatal_in_app parse_iso bad_date _ "soon").
  - right. left.
  - reflexivity.
  - reflexivity.
Defined.

(** ** Month columns *)

(** C6. On the two rows of [jan_feb] the month columns of [pivot_qty] are in
    the order of the label strings, "Feb 24" before "Jan 24", while the
    heatmap of the same rows has them in calendar order. *)
Theorem pivot_qty_columns_in_label_order :
  p_columns (pivot_qty (filtered_df no_filter (df3 jan_feb)))
    = ["Feb 24"; "Jan 24"] ∧
  heatmaps no_filter (df3 jan_feb)
    = Some [("Copper", mk_pivot ["simba"; "zumbaa"] ["Jan 24"; "Feb 24"]
                                [[2%Q; 0%Q]; [0%Q; 1%Q]])].
Proof. split; vm_compute; reflexivity. Qed.

(** ** Sums over groups *)

Lemma Qsum_nil : Qsum [] = 0%Q.
Proof. reflexivity. Qed.

Lemma Qsum_cons x l : Qsum (x :: l) = (x + Qsum l)%Q.
Proof. reflexivity. Qed.

Lemma Qsum_app l1 l2 : (Qsum (l1 ++ l2) == Qsum l1 + Qsum l2)%Q.
Proof.
  induction l1 as [|x l1 IH].
  - rewrite app_nil_l, Qsum_nil. ring.
  - rewrite <- app_comm_cons, !Qsum_cons, IH. ring.
Qed.






Section group_sums.
Context {A K : Type} `{EqDecision K}.
Implicit Types (key : A → option K) (f : A → Q) (l : list A).


End group_sums.

Section group_keys_facts.
Context {A K : Type} `{EqDecision K}.
Context (R : relation K) `{∀ x y, Decision (R x y)}.
Implicit Types (key : A → option K) (l : list A).

Lemma group_keys_NoDup key l : NoDup (group_keys R key l).
Proof.
  unfold group_keys. rewrite merge_sort_Permutation.
  apply NoDup_remove_dups.
Qed.

Lemma elem_of_group_keys key l k :
  k ∈ group_keys R key l ↔ ∃ r, r ∈ l ∧ key r = Some k.
Proof.
  unfold group_keys.
  rewrite merge_sort_Permutation, elem_of_remove_dups, list_elem_of_omap.
  done.
Qed.

End group_keys_facts.

(** ** The dealer summary *)




#[local] Instance sales_ge_total : Total sales_ge.
Proof.
  intros a b. unfold sales_ge.
  destruct (Qle_bool (d_total_sales b) (d_total_sales a)) eqn:E1; [by left|].
  right. apply Is_true_true, Qle_bool_iff.
  apply Qlt_le_weak, Qnot_le_lt. intros H.
  apply Qle_bool_iff in H. congruence.
Qed.

#[local] Instance sales_ge_trans : Transitive sales_ge.
Proof.
  intros a b c. unfold sales_ge. rewrite !Is_true_true, !Qle_bool_iff.
  intros H1 H2. eapply Qle_trans; eassumption.
Qed.









(** ** Filters *)

Lemma filter_all {A} (P : A → Prop) `{!∀ x, Decision (P x)} (l : list A) :
  (∀ x, P x) → filter P l = l.
Proof.
  intros HP. induction l as [|x l IH]; [done|].
  by rewrite filter_cons_True, IH.
Qed.

Lemma filter_none {A} (P : A → Prop) `{!∀ x, Decision (P x)} (l : list A) :
  (∀ x, ¬ P x) → filter P l = [].
Proof.
  intros HP. induction l as [|x l IH]; [done|].
  by rewrite filter_cons_False.
Qed.

Lemma prefix_empty s : String.prefix EmptyString s = true.
Proof. by destruct s. Qed.

(** The empty pattern occurs in every string. *)
Lemma str_contains_empty s : str_contains EmptyString s = true.
Proof. destruct s; cbn [str_contains]; by rewrite prefix_empty. Qed.

Lemma search_of_input_empty : search_of_input EmptyString = EmptyString.
Proof. reflexivity. Qed.

(** C8. With an empty search box the dealer search of [streamlit_app.py]
    keeps every row of the dealer summary, and the product search of
    [streamlit_app_3.py] keeps every row that reaches it: the filtered table
    is the one the other two filters give, and the whole table when those
    are "All". *)
Theorem empty_search_is_no_filter :
  (∀ stats : list DealerRow,
     filtered_dealers (search_of_input EmptyString) stats = stats) ∧
  (∀ d : list Row3, filter_search (search_of_input EmptyString) d = d) ∧
  (∀ pt ct (d : list Row3),
     filtered_df (mk_filters pt ct (search_of_input EmptyString)) d
     = filter_customer_type ct (filter_product_type pt d)) ∧
  (∀ d : list Row3,
     filtered_df (mk_filters "All" "All" (search_of_input EmptyString)) d = d).
Proof.
  rewrite search_of_input_empty. split; [|split; [|split]].
  - intros stats. unfold filtered_dealers. apply filter_all.
    intros x. by rewrite str_contains_empty.
  - intros d. reflexivity.
  - intros pt ct d. reflexivity.
  - intros d. reflexivity.
Qed.

(** ** Customer types *)

Lemma filter_key_absent {K V} `{EqDecision K} (h : K → V) (ks : list K) k :
  k ∉ ks → filter (λ kv, Some k = Some kv.1) ((λ k, (k, h k)) <$> ks) = [].
Proof.
  induction ks as [|k' ks IH]; intros Hk; [done|].
  rewrite fmap_cons, filter_cons, decide_False.
  - apply IH. intros ?. apply Hk. by right.
  - cbn. intros [= ->]. apply Hk. left.
Qed.

(** A key of a duplicate-free key column selects exactly its own row. *)
Lemma filter_key_unique {K V} `{EqDecision K} (h : K → V) (ks : list K) k :
  NoDup ks → k ∈ ks →
  filter (λ kv, Some k = Some kv.1) ((λ k, (k, h k)) <$> ks) = [(k, h k)].
Proof.
  induction 1 as [|k' ks Hk' Hnd IH]; intros Hin.
  - by apply elem_of_nil in Hin.
  - rewrite fmap_cons. destruct (decide (k = k')) as [->|Hne].
    + rewrite filter_cons, decide_True by reflexivity.
      rewrite filter_key_absent by assumption. reflexivity.
    + rewrite filter_cons, decide_False by (cbn; congruence).
      apply IH. by apply elem_of_cons in Hin as [?|?].
Qed.

Lemma customer_types_keys df :
  customer_types df
  = (λ c, (c, classify_customer (Qsum (item_total <$> customer_data df c))))
      <$> group_keys str_le customer_name df.
Proof.
  unfold customer_types, customer_summary.
  by rewrite <- list_fmap_compose.
Qed.

(** The left merge attaches to every row the tier of its customer, and
    nothing to a row without customer name; no row is lost or repeated. *)
Lemma merge_left_customer_types df :
  merge_left df (customer_types df) = (λ r, (r, tier_of df r)) <$> df.
Proof.
  unfold merge_left. rewrite customer_types_keys.
  assert (∀ l, (∀ r, r ∈ l → r ∈ df) →
    l ≫= (λ r,
      match filter (λ kt, customer_name r = Some kt.1)
              ((λ c, (c, classify_customer
                           (Qsum (item_total <$> customer_data df c))))
                 <$> group_keys str_le customer_name df) with
      | [] => [(r, None)]
      | ms => map (λ kt, (r, Some kt.2)) ms
      end) = (λ r, (r, tier_of df r)) <$> l) as H; [|by apply H].
  induction l as [|r l IH]; intros Hl; [done|].
  rewrite bind_cons, fmap_cons, IH by (intros; apply Hl; by right).
  destruct (customer_name r) as [c|] eqn:Hc.
  - rewrite filter_key_unique; [|apply group_keys_NoDup|].
    + unfold tier_of. rewrite Hc. reflexivity.
    + apply elem_of_group_keys. exists r. split; [apply Hl; left|done].
  - rewrite filter_none by done.
    unfold tier_of. rewrite Hc. reflexivity.
Qed.

Lemma df3_rows df :
  df3 df = (λ r, mk_row3 r (Category r) (tier_of df r)
                         (strftime_b_y <$> challan_date r)) <$> df.
Proof.
  unfold df3. by rewrite merge_left_customer_types, <- list_fmap_compose.
Qed.

Lemma df3_tier df r : r ∈ df3 df → Customer_Type r = tier_of df (base r).
Proof.
  rewrite df3_rows. intros (r0 & -> & _)%list_elem_of_fmap. reflexivity.
Qed.

Lemma apply_filters_sublist f d : apply_filters f d `sublist_of` d.
Proof.
  unfold apply_filters, filter_search, filter_customer_type,
    filter_product_type.
  repeat (case_decide || destruct (truthy _));
    repeat (etrans; [apply sublist_filter|]); done.
Qed.

Lemma elem_of_apply_filters f d r : r ∈ apply_filters f d → r ∈ d.
Proof. intros Hr. eapply elem_of_sublist, apply_filters_sublist. exact Hr. Qed.

Lemma filtered_sublist st sc (t : list SummaryRow) :
  filtered st sc t `sublist_of` t.
Proof.
  unfold filtered.
  repeat case_decide; repeat (etrans; [apply sublist_filter|]); done.
Qed.

Lemma summary_customer_type df s :
  s ∈ summary df →
  s_customer_type s
  = classify_customer (Qsum (item_total <$> customer_data df (s_customer s))).
Proof.
  unfold summary. intros (c & -> & _)%list_elem_of_fmap. reflexivity.
Qed.

(** C9. The customer type a row carries is the tier of its customer's item
    totals over the whole dataset ([tier_of df]).  Every table shown after
    filtering - the row table and the heatmap data of [streamlit_app_3.py],
    the summary of [streamlit_app_2.py] - is a selection of rows of the table
    annotated before filtering, so no filter changes a customer type. *)
Theorem tier_unchanged_by_filters (df : list Row) :
  (∀ f, filtered_df f (df3 df) `sublist_of` df3 df) ∧
  (∀ f r, r ∈ filtered_df f (df3 df) →
          Customer_Type r = tier_of df (base r)) ∧
  (∀ f r, r ∈ heatmap_data f (df3 df) →
          Customer_Type r = tier_of df (base r)) ∧
  (∀ st sc, filtered st sc (summary df) `sublist_of` summary df) ∧
  (∀ st sc s, s ∈ filtered st sc (summary df) →
     s_customer_type s
     = classify_customer
         (Qsum (item_total <$> customer_data df (s_customer s)))).
Proof.
  repeat split.
  - intros f. apply apply_filters_sublist.
  - intros f r Hr. by apply elem_of_apply_filters, df3_tier in Hr.
  - intros f r. unfold heatmap_data.
    intros (r0 & -> & Hr0)%list_elem_of_fmap.
    apply elem_of_apply_filters, list_elem_of_filter in Hr0 as [_ Hr0].
    apply df3_tier in Hr0. unfold heatmap_row. cbn. rewrite Hr0. reflexivity.
  - intros st sc. apply filtered_sublist.
  - intros st sc s Hs. apply summary_customer_type.
    eapply elem_of_sublist; [exact Hs|apply filtered_sublist].
Qed.

(** ** Cell sums of pivots *)





Section sum_pivot_facts.
Context {K : Type} `{EqDecision K}.
Context (R : relation K) `{∀ x y, Decision (R x y)}.
Implicit Types (rowkey : Row3 → option K) (d : list Row3).






End sum_pivot_facts.




(** ** Picking columns by label *)









(** ** Month labels *)





(** ** Heatmaps *)


Lemma filter_comm {A} (P Q : A → Prop)
    `{!∀ x, Decision (P x), !∀ x, Decision (Q x)} (l : list A) :
  filter P (filter Q l) = filter Q (filter P l).
Proof. rewrite !list_filter_filter. apply list_filter_iff. tauto. Qed.



Lemma filter_product_type_comm s (P : Row3 → Prop) `{!∀ r, Decision (P r)} d :
  filter_product_type s (filter P d) = filter P (filter_product_type s d).
Proof. unfold filter_product_type. case_decide; [apply filter_comm|done]. Qed.

Lemma filter_customer_type_comm s (P : Row3 → Prop)
    `{!∀ r, Decision (P r)} d :
  filter_customer_type s (filter P d) = filter P (filter_customer_type s d).
Proof. unfold filter_customer_type. case_decide; [apply filter_comm|done]. Qed.

Lemma filter_search_comm s (P : Row3 → Prop) `{!∀ r, Decision (P r)} d :
  filter_search s (filter P d) = filter P (filter_search s d).
Proof. unfold filter_search. destruct (truthy s); [apply filter_comm|done]. Qed.

(** The view filters commute with any other selection of rows. *)
Lemma apply_filters_comm f (P : Row3 → Prop) `{!∀ r, Decision (P r)} d :
  apply_filters f (filter P d) = filter P (apply_filters f d).
Proof.
  unfold apply_filters.
  by rewrite filter_product_type_comm, filter_customer_type_comm,
    filter_search_comm.
Qed.



Lemma classify_customer_tier x : classify_customer x ∈ tiers.
Proof.
  unfold classify_customer, tiers.
  destruct (Qgtb x 1000000), (Qgtb x 500000), (Qgtb x 100000);
    rewrite !elem_of_cons; tauto.
Qed.





(** On [bulk_some], where the bulk item was ordered with quantity 4, the
    pivot cells add up to 6 and the heatmap cells to 2. *)
Example bulk_some_sums :
  (pivot_cells_sum (pivot_qty (filtered_df no_filter (df3 bulk_some))) == 6)%Q ∧
  (heatmap_cells_sum <$> heatmaps no_filter (df3 bulk_some)) = Some 2%Q.
Proof. split; vm_compute; reflexivity. Qed.

(** * Further properties of the code *)

(** ** Tiers *)

(** X1. A larger total never gives a lower tier. *)
Theorem classify_customer_monotone (a b : Q) :
  (a <= b)%Q →
  (tier_rank (classify_customer a) ≤ tier_rank (classify_customer b))%nat.
Proof.
  intros Hab. unfold classify_customer.
  destruct (Qgtb a 1000000) eqn:A1;
    [apply Qgtb_lt in A1|apply Qgtb_le in A1];
  (destruct (Qgtb a 500000) eqn:A2;
    [apply Qgtb_lt in A2|apply Qgtb_le in A2]);
  (destruct (Qgtb a 100000) eqn:A3;
    [apply Qgtb_lt in A3|apply Qgtb_le in A3]);
  (destruct (Qgtb b 1000000) eqn:B1;
    [apply Qgtb_lt in B1|apply Qgtb_le in B1]);
  (destruct (Qgtb b 500000) eqn:B2;
    [apply Qgtb_lt in B2|apply Qgtb_le in B2]);
  (destruct (Qgtb b 100000) eqn:B3;
    [apply Qgtb_lt in B3|apply Qgtb_le in B3]);
  try (exfalso; lra); vm_compute; lia.
Qed.

Lemma classify_customer_monotone_witness :
  (tier_rank (classify_customer 400000)
   ≤ tier_rank (classify_customer 600000))%nat.
Proof. apply classify_customer_monotone. vm_compute. discriminate. Defined.

(** ** Loading *)



(** ** Search boxes *)

Lemma lstrip_all_space s : all_space s = true → lstrip s = EmptyString.
Proof.
  induction s as [|c s IH]; [done|]. cbn.
  intros [Hc Hs]%andb_true_iff. rewrite Hc. by apply IH.
Qed.

(** X3. A search box that holds only whitespace filters nothing, in the
    dealer search of [streamlit_app.py] as in the product search of
    [streamlit_app_3.py]. *)
Theorem blank_search_is_no_filter (input : string) :
  all_space input = true →
  (∀ stats : list DealerRow,
     filtered_dealers (search_of_input input) stats = stats) ∧
  (∀ d : list Row3, filter_search (search_of_input input) d = d).
Proof.
  intros Hs. unfold search_of_input, strip.
  rewrite lstrip_all_space by done. cbn [rstrip lower]. split.
  - intros stats. unfold filtered_dealers. apply filter_all.
    intros x. by rewrite str_contains_empty.
  - intros d. reflexivity.
Qed.

Lemma blank_search_is_no_filter_witness :
  (∀ stats : list DealerRow,
     filtered_dealers (search_of_input "   ") stats = stats) ∧
  (∀ d : list Row3, filter_search (search_of_input "   ") d = d).
Proof. apply blank_search_is_no_filter. reflexivity. Defined.

(** ** The filters of the product timeline *)


(** X5. The heatmap data is the filtered row table without its "Other Bulk
    Orders" rows: applying the three filters a second time, after the bulk
    rows were removed, selects the same rows in the same order.  On the
    loaded table a row that has an item name is carried over unchanged. *)
Theorem heatmap_data_is_filtered_df (f : Filters) (df : list Row) :
  heatmap_data f (df3 df)
  = heatmap_row <$>
      filter (λ r, Product_Category r ≠ "Other Bulk Orders")
             (filtered_df f (df3 df)) ∧
  (∀ r, r ∈ filtered_df f (df3 df) → is_Some (item_name (base r)) →
        heatmap_row r = r).
Proof.
  split.
  - unfold heatmap_data, filtered_df. by rewrite apply_filters_comm.
  - intros r Hr%elem_of_apply_filters [i Hi]. rewrite df3_rows in Hr.
    apply list_elem_of_fmap in Hr as (r0 & -> & _).
    unfold heatmap_row. cbn [base Product_Category Customer_Type] in *.
    rewrite Hi. destruct r0 as [cn cd cu it qo tot].
    cbn [item_name] in Hi. subst it. reflexivity.
Qed.

(** X6. The left merge with the per-customer types keeps the table as it
    is: every row once and in its place, also the rows without customer
    name; each row gets the category of its item, the label of its date and
    the tier of its customer. *)
Theorem df3_keeps_rows (df : list Row) :
  base <$> df3 df = df ∧
  ∀ r, r ∈ df3 df →
       Product_Category r = Category (base r) ∧
       Month r = strftime_b_y <$> challan_date (base r) ∧
       Customer_Type r = tier_of df (base r).
Proof.
  rewrite df3_rows. split.
  - rewrite <- list_fmap_compose. apply list_fmap_id.
  - by intros r (r0 & -> & _)%list_elem_of_fmap.
Qed.

(** ** The quantity pivot *)







(** ** Categories and colours *)

Lemma category_list_eq :
  category_list
  = ["Bio-Fertilizers"; "Micronutrients"; "Chelated Micronutrients";
     "Bio-Stimulants"; "Other Bulk Orders"; "Uncategorized"].
Proof. reflexivity. Qed.

(** Every cell is classified into one of the five categories of the map or
    into "Uncategorized". *)
Lemma classify_item_in_category_list cell :
  classify_item cell ∈ category_list.
Proof.
  unfold classify_item, map_fillna, category_list.
  destruct cell as [name|].
  - change (Some name ≫= (λ k, item_to_category !! k))
      with (item_to_category !! name).
    destruct (item_to_category !! name) as [c|] eqn:E.
    + apply dict_lookup_origin in E as (items & Hin & _).
      apply elem_of_app. left. apply list_elem_of_fmap.
      by exists (c, items).
    + apply elem_of_app. right. left.
  - apply elem_of_app. right. left.
Qed.

(** X10. The colour lookups never fall back to their default: the category
    of every row is a key of both category colour tables, and the type of
    every customer is a key of the row colour table. *)
Theorem colour_lookups_never_default :
  (∀ r : Row, category_colors !! Category r = Some (bar_color (Category r))) ∧
  (∀ (r : Row3) (i : string), Product_Category r = Category (base r) →
     category_colors_3 !! Product_Category r
     = Some (highlight_by_category (Product_Category r, i))) ∧
  (∀ (df : list Row) (s : SummaryRow), s ∈ summary df →
     color_map !! s_customer_type s = Some (highlight_row s)).
Proof.
  assert (Hcat : ∀ c, c ∈ category_list →
    category_colors !! c = Some (bar_color c) ∧
    ∀ i, category_colors_3 !! c = Some (highlight_by_category (c, i))).
  { intros c. rewrite category_list_eq, !elem_of_cons, elem_of_nil.
    intros [->|[->|[->|[->|[->|[->|[]]]]]]]; split; try intros i;
      vm_compute; reflexivity. }
  split; [|split].
  - intros r. apply Hcat, classify_item_in_category_list.
  - intros r i ->. apply Hcat, classify_item_in_category_list.
  - intros df s Hs. rewrite (summary_customer_type df s Hs).
    unfold highlight_row. rewrite (summary_customer_type df s Hs).
    pose proof (classify_customer_tier
      (Qsum (item_total <$> customer_data df (s_customer s)))) as Ht.
    revert Ht. generalize (classify_customer
      (Qsum (item_total <$> customer_data df (s_customer s)))).
    intros t. unfold tiers. rewrite !elem_of_cons, elem_of_nil.
    intros [->|[->|[->|[->|[]]]]]; vm_compute; reflexivity.
Qed.

(** ** Per-category amounts of the dealer summary table *)


Lemma filter_none_elem {A} (P : A → Prop) `{!∀ x, Decision (P x)}
    (l : list A) :
  (∀ x, x ∈ l → ¬ P x) → filter P l = [].
Proof.
  induction l as [|x l IH]; intros HP; [done|].
  rewrite filter_cons_False by (apply HP; left).
  apply IH. intros y Hy. apply HP. by right.
Qed.







(** ** The category share of a dealer *)






(** ** Month labels and the order of the heatmap columns *)

Lemma label_parse_check :
  forallb (λ m,
    forallb (λ n,
      match strptime_b_y (month_abbr m ++ " " ++ two_digits n) with
      | Some d => (year d =? two_digit_year n)%Z
                  && (month_number (mon d) =? month_number m)%Z
                  && (day d =? 1)%Z
      | None => false
      end) (seqZ 0 100)) all_months = true.
Proof. vm_compute. reflexivity. Qed.

Lemma month_number_inj m1 m2 : month_number m1 = month_number m2 → m1 = m2.
Proof. destruct m1, m2; (reflexivity || discriminate). Qed.

(** Parsing the label of a date gives the first day of its month, in the
    century that the two-digit year is read into. *)
Lemma strptime_strftime_value d :
  strptime_b_y (strftime_b_y d)
  = Some (mk_date (two_digit_year (year d mod 100)) (mon d) 1).
Proof.
  pose proof label_parse_check as H. rewrite forallb_forall in H.
  assert (In (mon d) all_months) as Hm.
  { unfold all_months. destruct (mon d); cbn; tauto. }
  specialize (H (mon d) Hm). rewrite forallb_forall in H.
  assert (In (year d mod 100)%Z (seqZ 0 100)) as Hy.
  { apply list_elem_of_In, elem_of_seqZ.
    pose proof (Z.mod_pos_bound (year d) 100). lia. }
  specialize (H _ Hy). unfold strftime_b_y.
  destruct (strptime_b_y _) as [[y m dd]|]; [|discriminate H].
  cbn [year mon day] in H.
  apply andb_true_iff in H as [[Hy'%Z.eqb_eq Hm'%Z.eqb_eq]%andb_true_iff
                                 Hd%Z.eqb_eq].
  apply month_number_inj in Hm'. by subst.
Qed.

Lemma two_digit_year_exact y :
  two_digit_year (y mod 100) = y ↔ (1969 ≤ y ≤ 2068)%Z.
Proof.
  unfold two_digit_year.
  pose proof (Z.mod_pos_bound y 100). pose proof (Z.div_mod y 100).
  destruct (Z.ltb_spec (y mod 100) 69); lia.
Qed.

(** X13. Formatting a date as "%b %y" and parsing the label back gives the
    first day of the month of that date exactly when its year is between
    1969 and 2068; outside that window the label is read into another
    century. *)
Theorem month_label_round_trip (d : date) :
  strptime_b_y (strftime_b_y d) = Some (first_of_month d)
  ↔ (1969 ≤ year d ≤ 2068)%Z.
Proof.
  rewrite strptime_strftime_value. unfold first_of_month.
  rewrite <- two_digit_year_exact. split.
  - by intros [= ->].
  - by intros ->.
Qed.

#[local] Instance date_le_total : Total date_le.
Proof.
  intros a b. unfold date_le.
  destruct (Z.leb_spec (date_key a) (date_key b)); [by left|].
  right. apply Is_true_true, Z.leb_le. lia.
Qed.



(** ** The monthly breakdown of a dealer *)



(** ** The month labels of the dealer dashboard *)

Lemma compare_app_same_length (a b s t : string) :
  String.length a = String.length b →
  String.compare (a ++ s) (b ++ t)
  = match String.compare a b with
    | Eq => String.compare s t
    | r => r
    end.
Proof.
  revert b. induction a as [|c a IH]; intros [|c' b] Hlen;
    try discriminate; [reflexivity|].
  simpl. destruct (Ascii.compare c c'); [|reflexivity..].
  apply IH. by inversion Hlen.
Qed.

Lemma four_digits_compare_check :
  forallb (λ y1,
    forallb (λ y2,
      match String.compare (four_digits y1) (four_digits y2), (y1 ?= y2)%Z
      with
      | Eq, Eq | Lt, Lt | Gt, Gt => true
      | _, _ => false
      end) (seqZ 1677 586)) (seqZ 1677 586) = true.
Proof. vm_compute. reflexivity. Qed.

Lemma four_digits_compare y1 y2 :
  (1677 ≤ y1 ≤ 2262)%Z → (1677 ≤ y2 ≤ 2262)%Z →
  String.compare (four_digits y1) (four_digits y2) = (y1 ?= y2)%Z.
Proof.
  intros H1 H2. pose proof four_digits_compare_check as H.
  rewrite forallb_forall in H.
  specialize (H y1). rewrite forallb_forall in H.
  - specialize (H (ltac:(apply list_elem_of_In, elem_of_seqZ; lia)) y2
                  (ltac:(apply list_elem_of_In, elem_of_seqZ; lia))).
    by destruct (String.compare _ _), (y1 ?= y2)%Z.
Qed.

Lemma two_digits_month_compare m1 m2 :
  String.compare (two_digits (month_number m1)) (two_digits (month_number m2))
  = (month_number m1 ?= month_number m2)%Z.
Proof. destruct m1, m2; reflexivity. Qed.

Lemma period_M_str_compare d1 d2 :
  (1677 ≤ year d1 ≤ 2262)%Z → (1677 ≤ year d2 ≤ 2262)%Z →
  String.compare (period_M_str d1) (period_M_str d2)
  = match (year d1 ?= year d2)%Z with
    | Eq => (month_number (mon d1) ?= month_number (mon d2))%Z
    | r => r
    end.
Proof.
  intros H1 H2. unfold period_M_str.
  rewrite compare_app_same_length by reflexivity.
  rewrite four_digits_compare by done.
  destruct (year d1 ?= year d2)%Z; [|reflexivity..].
  rewrite (compare_app_same_length "-" "-") by reflexivity.
  apply two_digits_month_compare.
Qed.

Lemma month_number_range m : (1 ≤ month_number m ≤ 12)%Z.
Proof. destruct m; cbn; lia. Qed.

Lemma NaT_label_check :
  forallb (λ y,
    forallb (λ m,
      String.leb (period_M_str (mk_date y m 1)) "NaT"
      && negb (String.leb "NaT" (period_M_str (mk_date y m 1))))
      all_months) (seqZ 1677 586) = true.
Proof. vm_compute. reflexivity. Qed.

#[local] Instance str_le_total : Total str_le.
Proof.
  intros a b. unfold str_le.
  destruct (String.leb_total a b) as [->| ->]; [by left|by right].
Qed.

(** X16. In the monthly chart of a dealer the months stand in ascending
    order of their labels "YYYY-MM", and for the dates a timestamp can hold
    (years 1677 to 2262) that is the order of the calendar; the rows without
    date, labelled "NaT", come after every month. *)
Theorem monthly_labels_calendar_order :
  (∀ cd, Sorted str_le (fst <$> monthly_totals cd)) ∧
  (∀ d1 d2 : date,
     (1677 ≤ year d1 ≤ 2262)%Z → (1677 ≤ year d2 ≤ 2262)%Z →
     (str_le (period_M_str d1) (period_M_str d2)
      ↔ (year d1 * 12 + month_number (mon d1)
         ≤ year d2 * 12 + month_number (mon d2))%Z)) ∧
  (∀ d : date, (1677 ≤ year d ≤ 2262)%Z →
     str_le (period_M_str d) "NaT" ∧ ¬ str_le "NaT" (period_M_str d)).
Proof.
  split; [|split].
  - intros cd. unfold monthly_totals. rewrite <- list_fmap_compose.
    rewrite list_fmap_id. apply (Sorted_merge_sort str_le).
  - intros d1 d2 H1 H2. unfold str_le, String.leb.
    rewrite period_M_str_compare by done.
    pose proof (month_number_range (mon d1)).
    pose proof (month_number_range (mon d2)).
    destruct (Z.compare_spec (year d1) (year d2)) as [Hy|Hy|Hy];
      [destruct (Z.compare_spec (month_number (mon d1))
                                (month_number (mon d2)))|..];
      cbn; split; intros; try done; try lia.
  - intros [y m dd] Hy. cbn [year] in Hy.
    pose proof NaT_label_check as H. rewrite forallb_forall in H.
    specialize (H y (ltac:(apply list_elem_of_In, elem_of_seqZ; lia))).
    rewrite forallb_forall in H.
    assert (In m all_months) as Hm
      by (unfold all_months; destruct m; cbn; tauto).
    specialize (H m Hm).
    apply andb_true_iff in H as [H1 H2%negb_true_iff].
    unfold str_le. change (period_M_str (mk_date y m dd))
      with (period_M_str (mk_date y m 1)).
    rewrite H1, H2. split; [done|]. by intros [].
Qed.

(** ** The dealer list *)

Lemma filter_imap_snd {A} (P : A → Prop) `{!∀ x, Decision (P x)}
    (l : list A) (k : nat) :
  snd <$> filter (λ p, P p.2) (imap (λ i d, (k + i, d)) l) = filter P l.
Proof.
  revert k. induction l as [|x l IH]; intros k; [done|].
  cbn [imap]. rewrite !filter_cons. cbn [snd].
  rewrite (imap_ext _ (λ i d, (S k + i, d)))
    by (intros; unfold compose; f_equal; lia).
  destruct (decide (P x)); [rewrite fmap_cons; cbn [snd]|];
    by rewrite IH.
Qed.

(** X17. The dealers shown for a search are those of [filtered_dealers], in
    the same order, and the number shown beside a dealer is its rank in the
    whole dealer summary, not its position among the search results. *)
Theorem dealer_serial_is_rank (search : string) (stats : list DealerRow) :
  snd <$> dealer_rows_shown search stats = filtered_dealers search stats ∧
  ∀ n d, (n, d) ∈ dealer_rows_shown search stats →
         ∃ i, n = S i ∧ stats !! i = Some d.
Proof.
  unfold dealer_rows_shown, filtered_dealers. split.
  - rewrite <- list_fmap_compose.
    rewrite <- (filter_imap_snd
      (λ d, str_contains search (lower (d_customer d))) stats 0).
    by apply list_fmap_ext.
  - intros n d ([i d'] & [= -> ->] & Hin)%list_elem_of_fmap.
    apply list_elem_of_filter in Hin as [_ Hin].
    apply elem_of_lookup_imap in Hin as (j & x & [= -> ->] & Hj).
    eauto.
Qed.

(** ** The dealer summary table *)

Lemma summary_customers df :
  s_customer <$> summary df = group_keys str_le customer_name df.
Proof.
  unfold summary. rewrite <- list_fmap_compose. apply list_fmap_id.
Qed.

Lemma filter_key_length {A K} `{EqDecision K} (g : A → K) (k : K)
    (l : list A) :
  NoDup (g <$> l) → (length (filter (λ x, g x = k) l) ≤ 1)%nat.
Proof.
  induction l as [|x l IH]; [cbn; lia|].
  rewrite fmap_cons, NoDup_cons. intros [Hx Hnd].
  rewrite filter_cons. destruct (decide (g x = k)) as [<-|Hne].
  - rewrite filter_none_elem; [cbn; lia|].
    intros y Hy Heq. apply Hx. rewrite <- Heq. by apply list_elem_of_fmap_2.
  - by apply IH.
Qed.

(** X18. The summary table has one row per customer, in ascending order of
    the name.  Its filters combine with "and", and choosing a customer
    leaves at most one row. *)
Theorem filtered_summary_spec (df : list Row) (st sc : string) :
  NoDup (s_customer <$> summary df) ∧
  Sorted str_le (s_customer <$> summary df) ∧
  (∀ s, s ∈ filtered st sc (summary df) ↔
        s ∈ summary df ∧
        (st = "All" ∨ s_customer_type s = st) ∧
        (sc = "All" ∨ s_customer s = sc)) ∧
  (sc ≠ "All" → (length (filtered st sc (summary df)) ≤ 1)%nat).
Proof.
  rewrite summary_customers. split; [apply group_keys_NoDup|].
  split; [apply (Sorted_merge_sort str_le)|]. split.
  - intros s. unfold filtered.
    destruct (decide (st ≠ "All")) as [Hst|Hst%dec_stable];
      destruct (decide (sc ≠ "All")) as [Hsc|Hsc%dec_stable];
      rewrite ?list_elem_of_filter; naive_solver.
  - intros Hsc. unfold filtered. rewrite (decide_True (P := sc ≠ "All")) by done.
    assert (NoDup (s_customer <$> summary df)) as Hnd
      by (rewrite summary_customers; apply group_keys_NoDup).
    destruct (decide (st ≠ "All")).
    + rewrite filter_comm.
      etrans; [apply length_filter|]. by apply filter_key_length.
    + by apply filter_key_length.
Qed.

(** ** Summary by customer type *)








(** ** The heat maps always come out *)





